(** * Multi-persona code review: persona dispatch and report rendering

    A shallow embedding of [main.py]: the prompt templating done by
    [str.format], [CodeReviewPersona], [generate_persona_prompt], and the
    [CodeReviewEngine] methods [review_code], [list_available_personas] and
    [format_reviews].

    Python [str] values are modelled as [string], read as UTF-8 text.  The
    delimiters of the format mini-language, ASCII letters and ASCII white
    space are single bytes that never occur inside a multi-byte sequence, so
    scanning bytes and scanning code points agree on them. *)

From Stdlib Require Import String Ascii List Bool Arith NArith ZArith Lia.
From Stdlib Require Import DecimalString SpecFloat.
Import ListNotations.

Local Open Scope list_scope.
Local Open Scope string_scope.

(** ** Python exceptions *)

(** The subclasses of [Exception] that the modelled code can raise.  The
    argument is the exception's argument: a message, or the missing key. *)
Inductive PyExc : Type :=
| ValueError (msg : string)
| KeyError (key : string)
| IndexError (msg : string)
| AttributeError (msg : string)
| TypeError (msg : string).

(** ** String operations of the Python runtime *)

Module PyStr.

Definition snoc (s : string) (c : ascii) : string := s ++ String c "".

(** [str(n)] for a non-negative integer. *)
Definition of_nat (n : nat) : string := NilZero.string_of_uint (Nat.to_uint n).
Definition of_N (n : N) : string := NilZero.string_of_uint (N.to_uint n).

(** [s.lower()] on the ASCII letters.  Bytes of non-ASCII code points are
    left as they are: the Unicode case mapping outside ASCII is not
    modelled. *)
Definition lower_char (c : ascii) : ascii :=
  let n := nat_of_ascii c in
  if ((65 <=? n) && (n <=? 90))%nat then ascii_of_nat (n + 32) else c.

Fixpoint lower (s : string) : string :=
  match s with
  | EmptyString => EmptyString
  | String c r => String (lower_char c) (lower r)
  end.

(** White space as [str.strip()] sees it, in UTF-8:
    U+0009..U+000D, U+001C..U+001F, U+0020 (one byte);
    U+0085, U+00A0 (two bytes); U+1680, U+2000..U+200A, U+2028, U+2029,
    U+202F, U+205F, U+3000 (three bytes). *)
Definition space1 (a : ascii) : bool :=
  let n := nat_of_ascii a in
  (((9 <=? n) && (n <=? 13)) || ((28 <=? n) && (n <=? 32)))%nat.

Definition space2 (a b : ascii) : bool :=
  ((nat_of_ascii a =? 194) && ((nat_of_ascii b =? 133) || (nat_of_ascii b =? 160)))%nat.

Definition space3 (a b c : ascii) : bool :=
  let x := nat_of_ascii a in
  let y := nat_of_ascii b in
  let z := nat_of_ascii c in
  (((x =? 225) && (y =? 154) && (z =? 128))
   || ((x =? 226) && (y =? 128)
       && (((128 <=? z) && (z <=? 138)) || (z =? 168) || (z =? 169) || (z =? 175)))
   || ((x =? 226) && (y =? 129) && (z =? 159))
   || ((x =? 227) && (y =? 128) && (z =? 128)))%nat.

(** Drops leading white space.  With [backwards] the bytes are those of a
    reversed string, so a multi-byte code point arrives last byte first. *)
Fixpoint drop_space (backwards : bool) (s : string) : string :=
  match s with
  | EmptyString => s
  | String a r1 =>
      if space1 a then drop_space backwards r1
      else
        match r1 with
        | EmptyString => s
        | String b r2 =>
            if (if backwards then space2 b a else space2 a b)
            then drop_space backwards r2
            else
              match r2 with
              | EmptyString => s
              | String c r3 =>
                  if (if backwards then space3 c b a else space3 a b c)
                  then drop_space backwards r3
                  else s
              end
        end
  end.

Definition rev (s : string) : string :=
  string_of_list_ascii (List.rev (list_ascii_of_string s)).

(** [s.strip()] *)
Definition strip (s : string) : string :=
  rev (drop_space true (rev (drop_space false s))).

(** [sub in s] *)
Fixpoint contains (sub s : string) : bool :=
  if prefix sub s then true
  else match s with
       | EmptyString => false
       | String _ r => contains sub r
       end.

(** The same as a proposition. *)
Definition Contains (sub s : string) : Prop :=
  exists pre post, s = pre ++ sub ++ post.

End PyStr.

(** ** [str.format]

    [template.format(code_diff=payload)] as CPython's [MarkupIterator_next],
    [parse_field] and [output_markup] perform it (CPython 3.8 and later, 64
    bit): the template is read from left to right, literal text is copied,
    [{{] and [}}] are escapes, and every replacement field is rendered as
    soon as its closing brace is read, so the first error in reading order
    is the one raised.

    There are no positional arguments and [code_diff] is the only keyword.
    A field that names [code_diff] and then asks for more than the value
    itself (an attribute or index lookup, a conversion, a format
    specification) is rendered by [format_value], which stands for the rest
    of the format mini-language. *)

Section Format.

(** [format_value rest conversion spec payload]: [rest] is what follows
    [code_diff] in the field name. *)
Variable format_value : string -> option ascii -> string -> string -> PyExc + string.

Definition PY_SSIZE_T_MAX : N := 9223372036854775807.

(** The value of an ASCII digit.  Decimal digits of other scripts, which
    CPython also accepts here, are not modelled: a field named by them
    raises [KeyError] here and [IndexError] there. *)
Definition digit_value (c : ascii) : option N :=
  let n := N_of_ascii c in
  if (48 <=? n)%N && (n <=? 57)%N then Some (n - 48)%N else None.

(** [get_integer], after its test for the empty string: [inr None] is the
    C function's -1 without an error set. *)
Fixpoint get_integer_from (accumulator : N) (s : string) : PyExc + option N :=
  match s with
  | EmptyString => inr (Some accumulator)
  | String c r =>
      match digit_value c with
      | None => inr None
      | Some digitval =>
          if ((PY_SSIZE_T_MAX - digitval) / 10 <? accumulator)%N
          then inl (ValueError "Too many decimal digits in format string")
          else get_integer_from (accumulator * 10 + digitval)%N r
      end
  end.

Definition get_integer (s : string) : PyExc + option N :=
  match s with
  | EmptyString => inr None
  | _ => get_integer_from 0 s
  end.

(** [field_name_split]: the part before the first [.] or [[], and the rest. *)
Fixpoint field_name_split (s : string) : string * string :=
  match s with
  | EmptyString => ("", "")
  | String c r =>
      if (c =? "[")%char || (c =? ".")%char then ("", s)
      else let (first, rest) := field_name_split r in (String c first, rest)
  end.

Definition index_out_of_range (i : N) : PyExc :=
  IndexError ("Replacement index " ++ PyStr.of_N i
              ++ " out of range for positional args tuple").

(** [output_markup]: look the field up, then convert and format it. *)
Definition render_field (field_name : string) (conversion : option ascii)
           (format_spec : string) (code_diff : string) : PyExc + string :=
  let (first, rest) := field_name_split field_name in
  match get_integer first with
  | inl e => inl e
  | inr (Some i) => inl (index_out_of_range i)
  | inr None =>
      match first with
      | EmptyString => inl (index_out_of_range 0)
      | _ =>
          if first =? "code_diff" then
            match rest, conversion, format_spec with
            | EmptyString, None, EmptyString => inr code_diff
            | _, _, _ => format_value rest conversion format_spec code_diff
            end
          else inl (KeyError first)
      end
  end.

(** Where the scanner is in the template:
    - [Literal]: in the loop of [MarkupIterator_next] that copies text;
    - [SeenOpen], [SeenClose]: a brace was read and the next character
      decides between an escape, a field and an error;
    - [FieldName]: in the first loop of [parse_field]; inside brackets the
      characters up to the closing bracket are taken as they are;
    - [Conversion]: after [!]; [AfterConversion]: after the character of
      the conversion;
    - [FormatSpec]: in the second loop of [parse_field], [depth] braces
      deep inside the specification. *)
Inductive Scan : Type :=
| Literal
| SeenOpen
| SeenClose
| FieldName (in_brackets : bool) (name : string)
| Conversion (name : string)
| AfterConversion (name : string) (conversion : ascii)
| FormatSpec (name : string) (conversion : option ascii) (depth : nat) (spec : string).

Section Step.

Variable code_diff : string.

Definition close_field (out name : string) (conversion : option ascii)
           (spec : string) : PyExc + (Scan * string) :=
  match render_field name conversion spec code_diff with
  | inl e => inl e
  | inr v => inr (Literal, out ++ v)
  end.

(** One character of [parse_field]'s scan of the field name. *)
Definition name_char (in_brackets : bool) (name : string) (c : ascii)
           (out : string) : PyExc + (Scan * string) :=
  if in_brackets then inr (FieldName (negb (c =? "]")%char) (PyStr.snoc name c), out)
  else if (c =? "{")%char then inl (ValueError "unexpected '{' in field name")
  else if (c =? "[")%char then inr (FieldName true (PyStr.snoc name c), out)
  else if (c =? "}")%char then close_field out name None ""
  else if (c =? ":")%char then inr (FormatSpec name None 0 "", out)
  else if (c =? "!")%char then inr (Conversion name, out)
  else inr (FieldName false (PyStr.snoc name c), out).

Definition step (st : Scan) (c : ascii) (out : string) : PyExc + (Scan * string) :=
  match st with
  | Literal =>
      if (c =? "{")%char then inr (SeenOpen, out)
      else if (c =? "}")%char then inr (SeenClose, out)
      else inr (Literal, PyStr.snoc out c)
  | SeenOpen =>
      if (c =? "{")%char then inr (Literal, PyStr.snoc out c)
      else name_char false "" c out
  | SeenClose =>
      if (c =? "}")%char then inr (Literal, PyStr.snoc out c)
      else inl (ValueError "Single '}' encountered in format string")
  | FieldName in_brackets name => name_char in_brackets name c out
  | Conversion name => inr (AfterConversion name c, out)
  | AfterConversion name conversion =>
      if (c =? "}")%char then close_field out name (Some conversion) ""
      else if (c =? ":")%char then inr (FormatSpec name (Some conversion) 0 "", out)
      else inl (ValueError "expected ':' after conversion specifier")
  | FormatSpec name conversion depth spec =>
      if (c =? "{")%char
      then inr (FormatSpec name conversion (S depth) (PyStr.snoc spec c), out)
      else if (c =? "}")%char then
        match depth with
        | O => close_field out name conversion spec
        | S d => inr (FormatSpec name conversion d (PyStr.snoc spec c), out)
        end
      else inr (FormatSpec name conversion depth (PyStr.snoc spec c), out)
  end.

(** The end of the template. *)
Definition finish (st : Scan) (out : string) : PyExc + string :=
  match st with
  | Literal => inr out
  | SeenOpen => inl (ValueError "Single '{' encountered in format string")
  | SeenClose => inl (ValueError "Single '}' encountered in format string")
  | FieldName _ _ => inl (ValueError "expected '}' before end of string")
  | Conversion _ =>
      inl (ValueError "end of string while looking for conversion specifier")
  | AfterConversion _ _ => inl (ValueError "unmatched '{' in format spec")
  | FormatSpec _ _ _ _ => inl (ValueError "unmatched '{' in format spec")
  end.

Fixpoint scan (st : Scan) (out : string) (template : string) : PyExc + string :=
  match template with
  | EmptyString => finish st out
  | String c r =>
      match step st c out with
      | inl e => inl e
      | inr (st', out') => scan st' out' r
      end
  end.

End Step.

(** [template.format(code_diff=code_diff)] *)
Definition str_format (template code_diff : string) : PyExc + string :=
  scan code_diff Literal "" template.

End Format.

(** ** The world outside the program *)

(** [config] as [load_config] builds it: all four keys are present. *)
Record Config : Type := mkConfig {
  google_api_key : string;
  model_name : string;
  max_tokens : Z;
  temperature : spec_float
}.

(** One call [model.generate_content(prompt, generation_config=...)]. *)
Record Request : Type := mkRequest {
  req_model : string;
  req_prompt : string;
  max_output_tokens : Z;
  req_temperature : spec_float
}.

(** What the statements of a [try] block around the call come to (the
    construction of the generation config, the call, the read of
    [response.text]): the text, or an [Exception e], kept as [str(e)].
    Interrupts, which are not of class [Exception], are not modelled. *)
Inductive Reply : Type :=
| Text (text : string)
| Fails (str_e : string).

(** What [print] writes.  The warning of the dispatcher prints the [repr] of
    the list of names; it is kept as the list. *)
Inductive Output : Type :=
| Line (s : string)
| WarningNoMatch (selected_personas : list string).

(** What [open(file_path, 'r')] and [f.read()] come to. *)
Inductive FileRead : Type :=
| Content (s : string)
| FileNotFound
| ReadError (str_e : string).

(** What has been printed, the calls made to the endpoint, and the files
    written (name and content), each oldest first. *)
Record World : Type := mkWorld {
  stdout : list Output;
  requests : list Request;
  files : list (string * string)
}.

(** What the program does not decide: the endpoint, whose answer may
    depend on the calls made before, the files that can be read, and the
    part of the format mini-language left out of [str_format]. *)
Record Runtime : Type := mkRuntime {
  format_value : string -> option ascii -> string -> string -> PyExc + string;
  generate_content : list Request -> Request -> Reply;
  read_file : string -> FileRead
}.

(** ** Computations that print, call the endpoint and may raise *)

Definition M (A : Type) : Type := World -> (PyExc + A) * World.

Definition ret {A : Type} (a : A) : M A := fun w => (inr a, w).

Definition raise {A : Type} (e : PyExc) : M A := fun w => (inl e, w).

Definition bind {A B : Type} (c : M A) (k : A -> M B) : M B :=
  fun w =>
    match c w with
    | (inl e, w') => (inl e, w')
    | (inr a, w') => k a w'
    end.

Definition lift {A : Type} (r : PyExc + A) : M A := fun w => (r, w).

Definition print (o : Output) : M unit :=
  fun w => (inr tt, mkWorld (stdout w ++ [o])%list (requests w) (files w)).

Definition write_file (filename content : string) : M unit :=
  fun w => (inr tt, mkWorld (stdout w) (requests w) (files w ++ [(filename, content)])%list).

Definition call (rt : Runtime) (req : Request) : M Reply :=
  fun w => (inr (generate_content rt (requests w) req),
            mkWorld (stdout w) (requests w ++ [req])%list (files w)).

Declare Scope py_scope.
Delimit Scope py_scope with py.
Notation "x <- c ;; k" := (bind c (fun x => k))
  (at level 61, c at next level, right associativity) : py_scope.
Notation "c ;; k" := (bind c (fun _ => k))
  (at level 61, right associativity) : py_scope.
Local Open Scope py_scope.

(** Python's truth value of an optional string argument. *)
Definition truthy (o : option string) : option string :=
  match o with
  | Some EmptyString => None
  | _ => o
  end.

(** ** [generate_persona_prompt] *)

Definition meta_prompt (description : string) : string :=
  "You are  a helfpul AI assistant skilled in prompt engineering
"
  ++ "Given this persona description, generate a step by step code review prompt template."
  ++ "Persona description: " ++ description ++ "

"
  ++ "Make sure to include sections like focus areas, methodology, output format, and examples.".

Definition generate_persona_prompt (rt : Runtime) (description : string)
           (config : Config) (model : string) : M string :=
  (* try: *)
  reply <- call rt (mkRequest model (meta_prompt description)
                              (max_tokens config) (temperature config)) ;;
  match reply with
  | Text text => ret (PyStr.strip text)
  (* except Exception as e: *)
  | Fails e =>
      print (Line ("Error generating persona prompt: " ++ e)) ;;
      ret ""
  end.

(** ** The review of one persona: a dict with four keys *)

Module Review.

Record t : Type := mk {
  persona : string;
  focus : string;
  review : string;
  status : string
}.

End Review.

(** ** [class CodeReviewPersona] *)

Module CodeReviewPersona.

(** [model] is [genai.GenerativeModel(config['model_name'])], kept as the
    name of the model. *)
Record t : Type := mk {
  name : string;
  focus : string;
  config : Config;
  model : string;
  prompt_template : string
}.

(** [__init__] *)
Definition init (rt : Runtime) (name : string) (config : Config) (focus : string)
           (prompt_template description : option string) : M t :=
  let model := model_name config in
  match truthy prompt_template with
  | Some template => ret (mk name focus config model template)
  | None =>
      match truthy description with
      | Some description =>
          print (Line ("Generating a prompt template for " ++ name
                       ++ " using meta-prompting")) ;;
          template <- generate_persona_prompt rt description config model ;;
          ret (mk name focus config model template)
      | None =>
          raise (ValueError "Either prompt template or description must be provided.")
      end
  end.

Definition review_code (rt : Runtime) (self : t) (code_diff : string) : M Review.t :=
  full_prompt <- lift (str_format (format_value rt) (prompt_template self) code_diff) ;;
  (* try: *)
  reply <- call rt (mkRequest (model self) full_prompt
                              (max_tokens (config self)) (temperature (config self))) ;;
  match reply with
  | Text text =>
      ret (Review.mk (name self) (focus self) text "success")
  (* except Exception as e: *)
  | Fails e =>
      ret (Review.mk (name self) (focus self) ("Error during review: " ++ e) "error")
  end.

End CodeReviewPersona.

(** ** [class CodeReviewEngine] *)

Module CodeReviewEngine.

Record t : Type := mk {
  config : Config;
  personas : list CodeReviewPersona.t
}.

Definition code_quality_template : string :=
"You are a Senior Software Engineer specializing in code quality assessment with extensive experience in enterprise software development. Your responsibility is to conduct thorough maintainability and best practices analysis.

**Analysis Methodology:**
Execute your review using the following systematic approach:
1. Structural Assessment: Evaluate function complexity, nesting depth, and code organization
2. Naming Convention Analysis: Assess variable, function, and class naming clarity
3. Best Practices Compliance: Verify adherence to language-specific standards and patterns
4. Maintainability Impact Assessment: Determine long-term implications of current implementation

Code Under Review:
{code_diff}

**Required Output Format:**
For each identified issue, provide:
1. SEVERITY CLASSIFICATION (🔴 Critical, 🟡 Warning, ℹ️ Info) with CONFIDENCE LEVEL (0-100%)
2. Detailed technical explanation of the maintainability concern
3. Business impact assessment and recommended remediation steps
4. Complete code example demonstrating the proposed solution
5. Knowledge validation question related to the underlying software engineering principle

Maintain professional technical standards and provide actionable recommendations.".

Definition bug_hunter_template : string :=
"You are a Senior Quality Assurance Engineer and Security Specialist with expertise in identifying software defects and vulnerability patterns. Your mandate is to conduct comprehensive defect analysis and risk assessment.

**Systematic Defect Analysis Process:**
Apply the following structured methodology:
1. Input Validation Assessment: Analyze handling of null, empty, and malformed inputs
2. Exception Handling Evaluation: Verify comprehensive error management and recovery
3. Resource Management Review: Assess memory usage, connection handling, and cleanup procedures
4. Logic Correctness Verification: Identify algorithmic errors and boundary condition failures
5. Concurrency Safety Analysis: Evaluate thread safety and race condition susceptibility

Code Under Review:
{code_diff}

**Required Output Format:**
For each identified defect, provide:
1. SEVERITY CLASSIFICATION (🔴 Critical, 🟡 Warning, ℹ️ Info) with CONFIDENCE ASSESSMENT (0-100%)
2. Defect category and specific failure conditions
3. Security implications and potential exploitation vectors
4. Detailed reproduction steps for verification
5. Complete remediation implementation with defensive programming practices
6. Quality assurance testing recommendations

Execute thorough analysis maintaining enterprise-grade quality standards.".

Definition _initialize_personas (rt : Runtime) (config : Config)
  : M (list CodeReviewPersona.t) :=
  p1 <- CodeReviewPersona.init rt "Code Quality Specialist" config
          "Code maintainability and best practices"
          (Some code_quality_template) None ;;
  p2 <- CodeReviewPersona.init rt "Bug Hunter" config
          "Potential bugs and edge cases"
          (Some bug_hunter_template) None ;;
  ret [p1; p2].

(** [__init__] *)
Definition init (rt : Runtime) (config : Config) : M t :=
  personas <- _initialize_personas rt config ;;
  ret (mk config personas).

(** [p.name.lower() in [s.lower() for s in selected_personas]] *)
Definition selected (selected_personas : list string) (p : CodeReviewPersona.t) : bool :=
  existsb (String.eqb (PyStr.lower (CodeReviewPersona.name p)))
          (map PyStr.lower selected_personas).

(** The [for] loop of [review_code]; [reviews] is the list built so far. *)
Fixpoint run_personas (rt : Runtime) (personas_to_run : list CodeReviewPersona.t)
         (code_diff : string) (reviews : list Review.t) : M (list Review.t) :=
  match personas_to_run with
  | [] => ret reviews
  | persona :: rest =>
      print (Line ("⚡ Running " ++ CodeReviewPersona.name persona ++ " review...")) ;;
      review <- CodeReviewPersona.review_code rt persona code_diff ;;
      run_personas rt rest code_diff (reviews ++ [review])%list
  end.

Definition start_review (rt : Runtime) (personas_to_run : list CodeReviewPersona.t)
           (code_diff : string) (reviews : list Review.t) : M (list Review.t) :=
  print (Line ("🔍 Starting review with " ++ PyStr.of_nat (length personas_to_run)
               ++ " persona(s)...")) ;;
  run_personas rt personas_to_run code_diff reviews.

Definition review_code (rt : Runtime) (self : t) (code_diff : string)
           (selected_personas : option (list string)) (file_path : option string)
  : M (list Review.t) :=
  let reviews := [] in
  match selected_personas with
  | None => start_review rt (personas self) code_diff reviews
  | Some names =>
      let personas_to_run := filter (selected names) (personas self) in
      match personas_to_run with
      | [] =>
          print (WarningNoMatch names) ;;
          ret reviews
      | _ => start_review rt personas_to_run code_diff reviews
      end
  end.

(** The lines of [list_available_personas], numbered from [i]. *)
Fixpoint list_personas_from (i : nat) (personas : list CodeReviewPersona.t) : M unit :=
  match personas with
  | [] => ret tt
  | persona :: rest =>
      print (Line ("  " ++ PyStr.of_nat i ++ ". " ++ CodeReviewPersona.name persona
                   ++ " - " ++ CodeReviewPersona.focus persona)) ;;
      list_personas_from (S i) rest
  end.

Definition list_available_personas (self : t) : M unit :=
  print (Line "📋 Available personas:") ;;
  list_personas_from 1 (personas self) ;;
  print (Line "") ;;
  print (Line "Usage examples:") ;;
  print (Line "  --personas 'code quality'") ;;
  print (Line "  --personas 'bug hunter'") ;;
  print (Line "  --personas 'code quality' 'bug hunter'  # Run both").

(** The block that the loop of [format_reviews] adds for one review. *)
Definition add_block (report : string) (review : Review.t) : string :=
  if Review.status review =? "success" then
    let report := report ++ "## 🤖 " ++ Review.persona review ++ " - "
                         ++ Review.focus review ++ "

" in
    let report := report ++ Review.review review ++ "

" in
    report ++ "---

"
  else
    let report := report ++ "## ❌ " ++ Review.persona review ++ " - ERROR

" in
    let report := report ++ Review.review review ++ "

" in
    report ++ "---

".

Definition format_reviews (self : t) (reviews : list Review.t) : M string :=
  let report := "# 🔍 Multi-Persona Code Review Report

" in
  let total_reviews :=
    length (filter (fun r => Review.status r =? "success") reviews) in
  let error_count :=
    length (filter (fun r => Review.status r =? "error") reviews) in
  let report := report ++ "📊 **Review Summary:**
" in
  let report := report ++ "- ✅ Successful reviews: " ++ PyStr.of_nat total_reviews ++ "
" in
  let report := report ++ "- ❌ Failed reviews: " ++ PyStr.of_nat error_count ++ "

" in
  let report := report ++ "---

" in
  ret (fold_left add_block reviews report).

End CodeReviewEngine.

(** ** [main], from the point where [load_config] has returned a
    configuration and [setup_api] has run *)

Module Args.

(** The namespace that [parse_arguments] returns. *)
Record t : Type := mk {
  personas : option (list string);
  list_personas : bool;
  file : option string;
  quiet : bool;
  description : option string;
  name : string;
  focus : string
}.

End Args.

Definition sample_code : string :=
"
def process_user_input(user_input):
    # New function to process user data
    result = eval(user_input)  # Potential security issue
    return result

def calculate_total(items):
    total = 0
    for i in range(len(items)):  # Performance issue - inefficient loop
        total += items[i]
    return total

class DataProcessor:
    def process_data_with_long_function_name_that_does_too_many_things(self, data1, data2, data3, data4, data5, data6):
        # This function has too many parameters
        if data1:
            if data2:
                if data3:
                    if data4:
                        if data5:
                            # Deep nesting issue
                            return data1 + data2 + data3 + data4 + data5
        return 0
        ".

Definition read_file_content (rt : Runtime) (file_path : string) : M (option string) :=
  match read_file rt file_path with
  | Content s => ret (Some s)
  | FileNotFound =>
      print (Line ("❌ Error: File '" ++ file_path ++ "' not found")) ;;
      ret None
  | ReadError e =>
      print (Line ("❌ Error reading file: " ++ e)) ;;
      ret None
  end.

Definition unless_quiet (args : Args.t) (line : string) : M unit :=
  if Args.quiet args then ret tt else print (Line line).

(** The end of [main], once the code to review is known. *)
Definition review_and_report (rt : Runtime) (args : Args.t) (engine : CodeReviewEngine.t)
           (code_content : string) (file_path : string) : M unit :=
  reviews <- CodeReviewEngine.review_code rt engine code_content
               (Args.personas args) (Some file_path) ;;
  match reviews with
  | [] => print (Line "❌ No reviews generated.")
  | _ =>
      formatted_report <- CodeReviewEngine.format_reviews engine reviews ;;
      print (Line formatted_report) ;;
      let output_filename := "review_report.txt" in
      write_file output_filename formatted_report ;;
      unless_quiet args ("💾 Review report saved to " ++ output_filename)
  end.

Definition main (rt : Runtime) (args : Args.t) (config : Config) : M unit :=
  engine <- CodeReviewEngine.init rt config ;;
  engine <-
    match truthy (Args.description args) with
    | Some description =>
        persona <- CodeReviewPersona.init rt (Args.name args) config (Args.focus args)
                     None (Some description) ;;
        ret (CodeReviewEngine.mk (CodeReviewEngine.config engine)
               (CodeReviewEngine.personas engine ++ [persona])%list)
    | None => ret engine
    end ;;
  if Args.list_personas args then CodeReviewEngine.list_available_personas engine
  else
    match truthy (Args.file args) with
    | Some file =>
        unless_quiet args ("📄 Reading file: " ++ file) ;;
        code_content <- read_file_content rt file ;;
        match code_content with
        | None => ret tt
        | Some code_content => review_and_report rt args engine code_content file
        end
    | None =>
        unless_quiet args "📝 No input file specified, using sample code..." ;;
        review_and_report rt args engine sample_code "sample.py"
    end.

(** ** [load_config], [setup_api] and the first lines of [main] *)

(** The environment of the process once [load_dotenv] has run, and the
    built-in conversions [int] and [float] on the strings read from it. *)
Record Environ : Type := mkEnviron {
  getenv : string -> option string;
  py_int : string -> PyExc + Z;
  py_float : string -> PyExc + spec_float
}.

(** [os.getenv(name, default)] *)
Definition getenv_default (env : Environ) (name default : string) : string :=
  match getenv env name with
  | Some v => v
  | None => default
  end.

Definition load_config (env : Environ) : M (option Config) :=
  let api_key := getenv env "GOOGLE_API_KEY" in
  match truthy api_key with
  | None =>
      print (Line "❌ Error: Please set GOOGLE_API_KEY environment variable") ;;
      print (Line "   Example: export GOOGLE_API_KEY='your-api-key-here'") ;;
      print (Line "   Or create a .env file with: GOOGLE_API_KEY=your-api-key-here") ;;
      ret None
  | Some api_key =>
      let model_name := getenv_default env "MODEL_NAME" "gemini-1.5-flash" in
      max_tokens <- lift (py_int env (getenv_default env "MAX_TOKENS" "2000")) ;;
      temperature <- lift (py_float env (getenv_default env "TEMPERATURE" "0.1")) ;;
      ret (Some (mkConfig api_key model_name max_tokens temperature))
  end.

(** [genai.configure] stores the key in the client library: nothing is
    printed, sent or written. *)
Definition setup_api (config : Config) : M bool := ret true.

(** [main] from its first line, for the namespace that [parse_arguments]
    returned. *)
Definition main_with_config (env : Environ) (rt : Runtime) (args : Args.t) : M unit :=
  config <- load_config env ;;
  match config with
  | None => ret tt
  | Some config =>
      setup_api config ;;
      main rt args config
  end.

(** * Vocabulary of the properties *)

(** ** The report *)

Definition report_title : string := "# 🔍 Multi-Persona Code Review Report

".

Definition separator : string := "---

".

(** The summary, for [ok] successful and [failed] failed reviews. *)
Definition summary (ok failed : nat) : string :=
  "📊 **Review Summary:**
- ✅ Successful reviews: " ++ PyStr.of_nat ok ++ "
- ❌ Failed reviews: " ++ PyStr.of_nat failed ++ "

".

Definition count_status (st : string) (reviews : list Review.t) : nat :=
  count_occ string_dec (map Review.status reviews) st.

(** The block of a review on its own. *)
Definition block (r : Review.t) : string := CodeReviewEngine.add_block "" r.

(** ** The dispatch *)

(** The world after one more line of output, and after one more call. *)
Definition printed (w : World) (o : Output) : World :=
  mkWorld (stdout w ++ [o])%list (requests w) (files w).

Definition sent (w : World) (req : Request) : World :=
  mkWorld (stdout w) (requests w ++ [req])%list (files w).

(** The request that a persona sends for a filled prompt. *)
Definition request_of (self : CodeReviewPersona.t) (full_prompt : string) : Request :=
  mkRequest (CodeReviewPersona.model self) full_prompt
            (max_tokens (CodeReviewPersona.config self))
            (temperature (CodeReviewPersona.config self)).

(** The template of the persona can be filled with the code. *)
Definition fills (rt : Runtime) (code_diff : string) (p : CodeReviewPersona.t) : bool :=
  match str_format (format_value rt) (CodeReviewPersona.prompt_template p) code_diff with
  | inr _ => true
  | inl _ => false
  end.

(** [r] is a review by persona [p]: it carries the persona's name and focus,
    and is either a success or a failure whose body is the error message. *)
Definition review_of (p : CodeReviewPersona.t) (r : Review.t) : Prop :=
  Review.persona r = CodeReviewPersona.name p
  /\ Review.focus r = CodeReviewPersona.focus p
  /\ (Review.status r = "success"
      \/ (Review.status r = "error"
          /\ exists e, Review.review r = "Error during review: " ++ e)).

(** [sub] occurs in [s] and is not all of it. *)
Definition ProperSubstring (sub s : string) : Prop :=
  PyStr.Contains sub s /\ sub <> s.

(** ** Concrete inputs *)

Module Sample.

(** The defaults of [load_config]; the temperature is the double nearest
    to 0.1. *)
Definition config : Config :=
  mkConfig "test-key" "gemini-1.5-flash" 2000 (S754_finite false 7205759403792794 (-56)).

Definition no_format_value (rest : string) (conversion : option ascii)
           (spec code_diff : string) : PyExc + string :=
  inl (ValueError "Invalid format specifier").

(** An endpoint that always answers, and one that never does. *)
Definition rt_up : Runtime :=
  mkRuntime no_format_value (fun _ _ => Text "Looks good.") (fun _ => FileNotFound).

Definition rt_down : Runtime :=
  mkRuntime no_format_value (fun _ _ => Fails "429 Quota exceeded") (fun _ => FileNotFound).

(** An endpoint whose first answer is a template with a JSON-like example
    in braces, as a model asked for an output format may write. *)
Definition braces_template : string :=
  "Report each finding as {severity}: {code_diff}".

Definition rt_braces : Runtime :=
  mkRuntime no_format_value
            (fun earlier _ => match earlier with
                              | [] => Text braces_template
                              | _ => Text "Looks good."
                              end)
            (fun _ => FileNotFound).

(** An endpoint that answers the meta-prompt with a template between white
    space, and every later call with a review. *)
Definition rt_a11y : Runtime :=
  mkRuntime no_format_value
            (fun earlier _ => match earlier with
                              | [] => Text "
  Review for a11y: {code_diff}
"
                              | _ => Text "Looks good."
                              end)
            (fun _ => FileNotFound).

Definition world : World := mkWorld [] [] [].

Definition code_quality : CodeReviewPersona.t :=
  CodeReviewPersona.mk "Code Quality Specialist" "Code maintainability and best practices"
    config (model_name config) CodeReviewEngine.code_quality_template.

Definition bug_hunter : CodeReviewPersona.t :=
  CodeReviewPersona.mk "Bug Hunter" "Potential bugs and edge cases"
    config (model_name config) CodeReviewEngine.bug_hunter_template.

(** A persona as [main] appends it, with the template that was generated. *)
Definition custom (template : string) : CodeReviewPersona.t :=
  CodeReviewPersona.mk "Custom Persona" "Custom review focus"
    config (model_name config) template.

Definition engine : CodeReviewEngine.t :=
  CodeReviewEngine.mk config [code_quality; bug_hunter].

Definition engine_with (p : CodeReviewPersona.t) : CodeReviewEngine.t :=
  CodeReviewEngine.mk config [code_quality; bug_hunter; p].

Definition failed_review : Review.t :=
  Review.mk "Bug Hunter" "Potential bugs and edge cases"
            "Error during review: 429 Quota exceeded" "error".

Definition good_review : Review.t :=
  Review.mk "Code Quality Specialist" "Code maintainability and best practices"
            "Looks good." "success".

End Sample.

(** The block of a review, by its status. *)
Definition block_of (r : Review.t) (b : string) : Prop :=
  if Review.status r =? "success"
  then b = "## 🤖 " ++ Review.persona r ++ " - " ++ Review.focus r ++ "

" ++ Review.review r ++ "

" ++ separator
  else b = "## ❌ " ++ Review.persona r ++ " - ERROR

" ++ Review.review r ++ "

" ++ separator.

(** ** Templates *)

Definition brace (c : ascii) : bool := (c =? "{")%char || (c =? "}")%char.

Fixpoint brace_free (s : string) : bool :=
  match s with
  | EmptyString => true
  | String c r => negb (brace c) && brace_free r
  end.

(** The text with every brace doubled: how literal braces are written in a
    template. *)
Fixpoint escape_braces (s : string) : string :=
  match s with
  | EmptyString => EmptyString
  | String c r =>
      if brace c then String c (String c (escape_braces r))
      else String c (escape_braces r)
  end.


(** ** The personas that a selection runs, and what is printed for them *)

Definition personas_to_run (self : CodeReviewEngine.t) (selection : option (list string))
  : list CodeReviewPersona.t :=
  match selection with
  | None => CodeReviewEngine.personas self
  | Some names => filter (CodeReviewEngine.selected names) (CodeReviewEngine.personas self)
  end.

(** The lines of the listing: the personas paired with 1, 2, 3, ... *)
Definition listing (ps : list CodeReviewPersona.t) : list Output :=
  map (fun ip : nat * CodeReviewPersona.t =>
         Line ("  " ++ PyStr.of_nat (fst ip) ++ ". " ++ CodeReviewPersona.name (snd ip)
               ++ " - " ++ CodeReviewPersona.focus (snd ip)))
      (combine (seq 1 (length ps)) ps).

Definition listing_header : list Output := [Line "📋 Available personas:"].

Definition listing_footer : list Output :=
  [ Line "";
    Line "Usage examples:";
    Line "  --personas 'code quality'";
    Line "  --personas 'bug hunter'";
    Line "  --personas 'code quality' 'bug hunter'  # Run both" ].

(** The status of a review is one of the two that the summary counts. *)
Definition counted (r : Review.t) : Prop :=
  Review.status r = "success" \/ Review.status r = "error".

(** The code that [main] reviews: the file of [--file] when it can be read,
    the sample when no file is named. *)
Definition code_content_of (rt : Runtime) (args : Args.t) : option string :=
  match truthy (Args.file args) with
  | None => Some sample_code
  | Some file =>
      match read_file rt file with
      | Content s => Some s
      | _ => None
      end
  end.

(** An environment without variables, whose conversions read nothing. *)
Definition empty_environ : Environ :=
  mkEnviron (fun _ => None)
            (fun _ => inl (ValueError "invalid literal for int() with base 10"))
            (fun _ => inl (ValueError "could not convert string to float")).


(** ** The run *)

(** The engine that [CodeReviewEngine(config)] builds. *)
Definition builtin_engine (config : Config) : CodeReviewEngine.t :=
  CodeReviewEngine.mk config
    [ CodeReviewPersona.mk "Code Quality Specialist" "Code maintainability and best practices"
        config (model_name config) CodeReviewEngine.code_quality_template;
      CodeReviewPersona.mk "Bug Hunter" "Potential bugs and edge cases"
        config (model_name config) CodeReviewEngine.bug_hunter_template ].



(** An environment with the key and a token limit that is not a number. *)
Definition keyed_environ : Environ :=
  mkEnviron (fun name => if name =? "GOOGLE_API_KEY" then Some "test-key"
                         else if name =? "MAX_TOKENS" then Some "lots"
                         else None)
            (fun _ => inl (ValueError "invalid literal for int() with base 10: 'lots'"))
            (fun _ => inl (ValueError "could not convert string to float")).

(** * Properties *)

(** ** Strings *)

Lemma append_assoc (a b c : string) : (a ++ b) ++ c = a ++ (b ++ c).
Proof. induction a as [|x a IH]; simpl; [reflexivity | now rewrite IH]. Qed.

Lemma append_nil_r (a : string) : a ++ "" = a.
Proof. induction a as [|x a IH]; simpl; [reflexivity | now rewrite IH]. Qed.

(** Brings both sides of an equation between appended strings to the
    right-nested form. *)
Ltac norm_append := repeat first [rewrite append_assoc | progress cbn [append]].

Lemma prefix_append (sub post : string) : prefix sub (sub ++ post) = true.
Proof.
  induction sub as [|x sub IH]; simpl.
  - now destruct post.
  - destruct (ascii_dec x x) as [_|N]; [exact IH | now elim N].
Qed.

(** [PyStr.contains] finds every occurrence. *)
Lemma contains_complete (sub s : string) :
  PyStr.Contains sub s -> PyStr.contains sub s = true.
Proof.
  intros (pre & post & ->).
  induction pre as [|x pre IH].
  - change ("" ++ sub ++ post) with (sub ++ post).
    pose proof (prefix_append sub post) as P.
    destruct (sub ++ post); cbn [PyStr.contains]; now rewrite P.
  - change (String x pre ++ sub ++ post) with (String x (pre ++ sub ++ post)).
    cbn [PyStr.contains].
    destruct (prefix sub (String x (pre ++ sub ++ post))); [reflexivity | exact IH].
Qed.

Lemma not_contains (sub s : string) :
  PyStr.contains sub s = false -> ~ PyStr.Contains sub s.
Proof. intros E H. apply contains_complete in H. congruence. Qed.

(** ** [str.format] and [str.strip] on small inputs *)

Section FormatExamples.

Variable fv : string -> option ascii -> string -> string -> PyExc + string.

Example format_code_slot :
  str_format fv "Review for a11y: {code_diff}" "x = 1" = inr "Review for a11y: x = 1".
Proof. reflexivity. Qed.

Example format_escaped_braces :
  str_format fv "{{x}} }}{{ {code_diff}" "p" = inr "{x} }{ p".
Proof. reflexivity. Qed.

(** The payload is copied, not scanned. *)
Example format_payload_with_braces :
  str_format fv "{code_diff}" "d = {x}" = inr "d = {x}".
Proof. reflexivity. Qed.

(** The template of a persona whose meta-prompt failed: the prompt is empty. *)
Example format_empty_template (code_diff : string) :
  str_format fv "" code_diff = inr "".
Proof. reflexivity. Qed.

Example format_unknown_field :
  str_format fv "{x}" "p" = inl (KeyError "x").
Proof. reflexivity. Qed.

Example format_padded_name :
  str_format fv "{ code_diff }" "p" = inl (KeyError " code_diff ").
Proof. reflexivity. Qed.

Example format_positional_field :
  str_format fv "{} and {1}" "p"
  = inl (IndexError "Replacement index 0 out of range for positional args tuple").
Proof. reflexivity. Qed.

Example format_single_closing_brace :
  str_format fv "if (a) { b }" "p" = inl (KeyError " b ").
Proof. reflexivity. Qed.

Example format_lone_closing_brace :
  str_format fv "a } b" "p" = inl (ValueError "Single '}' encountered in format string").
Proof. reflexivity. Qed.

Example format_open_at_end :
  str_format fv "a {" "p" = inl (ValueError "Single '{' encountered in format string").
Proof. reflexivity. Qed.

Example format_unclosed_field :
  str_format fv "{code_diff" "p" = inl (ValueError "expected '}' before end of string").
Proof. reflexivity. Qed.

(** The first error in reading order is the one raised. *)
Example format_first_error :
  str_format fv "{x} }" "p" = inl (KeyError "x").
Proof. reflexivity. Qed.

Example format_conversion_goes_to_format_value :
  str_format fv "{code_diff!r:>8}" "p"
  = match fv "" (Some "r"%char) ">8" "p" with
    | inl e => inl e
    | inr v => inr v
    end.
Proof. cbv. destruct (fv _ _ _ _); reflexivity. Qed.

End FormatExamples.

Example strip_both_ends :
  PyStr.strip "
  Review for a11y: {code_diff}
" = "Review for a11y: {code_diff}".
Proof. reflexivity. Qed.

Example lower_persona_name :
  PyStr.lower "Code Quality Specialist" = "code quality specialist".
Proof. reflexivity. Qed.

(** ** The report *)

Lemma add_block_app (report : string) (r : Review.t) :
  CodeReviewEngine.add_block report r = report ++ block r.
Proof.
  unfold block, CodeReviewEngine.add_block.
  destruct (Review.status r =? "success"); norm_append; reflexivity.
Qed.

Lemma fold_add_block (reviews : list Review.t) (report : string) :
  fold_left CodeReviewEngine.add_block reviews report
  = report ++ String.concat "" (map block reviews).
Proof.
  revert report; induction reviews as [|r rs IH]; intros report; simpl.
  - now rewrite append_nil_r.
  - rewrite IH, add_block_app, append_assoc. f_equal.
    destruct (map block rs) eqn:E; simpl; [now rewrite append_nil_r | reflexivity].
Qed.

Lemma filter_status_count (st : string) (reviews : list Review.t) :
  length (filter (fun r => Review.status r =? st) reviews) = count_status st reviews.
Proof.
  unfold count_status; induction reviews as [|r rs IH]; simpl; [reflexivity|].
  destruct (String.eqb_spec (Review.status r) st) as [E|N];
    destruct (string_dec (Review.status r) st) as [E'|N']; simpl; congruence.
Qed.

(** What [format_reviews] returns, in closed form. *)
Lemma format_reviews_eq (self : CodeReviewEngine.t) (reviews : list Review.t) (w : World) :
  CodeReviewEngine.format_reviews self reviews w
  = (inr (report_title
          ++ summary (count_status "success" reviews) (count_status "error" reviews)
          ++ separator ++ String.concat "" (map block reviews)), w).
Proof.
  unfold CodeReviewEngine.format_reviews, ret.
  rewrite fold_add_block, !filter_status_count.
  unfold report_title, summary, separator. f_equal. f_equal.
  norm_append; reflexivity.
Qed.

(** ** One persona *)

(** [CodeReviewPersona.review_code], case by case. *)
Lemma persona_review_code_eq (rt : Runtime) (self : CodeReviewPersona.t)
      (code_diff : string) (w : World) :
  CodeReviewPersona.review_code rt self code_diff w =
  match str_format (format_value rt) (CodeReviewPersona.prompt_template self) code_diff with
  | inl e => (inl e, w)
  | inr full_prompt =>
      let req := request_of self full_prompt in
      match generate_content rt (requests w) req with
      | Text text =>
          (inr (Review.mk (CodeReviewPersona.name self) (CodeReviewPersona.focus self)
                          text "success"), sent w req)
      | Fails e =>
          (inr (Review.mk (CodeReviewPersona.name self) (CodeReviewPersona.focus self)
                          ("Error during review: " ++ e) "error"), sent w req)
      end
  end.
Proof.
  unfold CodeReviewPersona.review_code, bind, lift, call, ret, request_of, sent.
  destruct (str_format _ _ _) as [e|full_prompt]; [reflexivity|].
  cbn. destruct (generate_content _ _ _); reflexivity.
Qed.

(** A persona whose template fills returns a review of its own and makes
    one call. *)
Lemma persona_review_code_fills (rt : Runtime) (self : CodeReviewPersona.t)
      (code_diff : string) (w : World) :
  fills rt code_diff self = true ->
  exists r w',
    CodeReviewPersona.review_code rt self code_diff w = (inr r, w')
    /\ review_of self r
    /\ stdout w' = stdout w
    /\ length (requests w') = S (length (requests w)).
Proof.
  unfold fills. intros F. rewrite persona_review_code_eq.
  destruct (str_format _ _ _) as [e|full_prompt]; [discriminate|].
  cbv zeta.
  destruct (generate_content _ _ _) as [text|e]; eexists; eexists;
    (split; [reflexivity|]); unfold review_of, sent; cbn;
    rewrite length_app; cbn; repeat split; eauto; lia.
Qed.

(** ** The loop over the personas *)

(** When every template fills, the loop adds one review per persona, in the
    order of the personas, whatever the endpoint answers. *)
Lemma run_personas_all (rt : Runtime) (code_diff : string)
      (ps : list CodeReviewPersona.t) :
  forall (reviews : list Review.t) (w : World),
    forallb (fills rt code_diff) ps = true ->
    exists rs w',
      CodeReviewEngine.run_personas rt ps code_diff reviews w
      = (inr (reviews ++ rs)%list, w')
      /\ Forall2 review_of ps rs
      /\ length (requests w') = length (requests w) + length ps.
Proof.
  induction ps as [|p ps IH]; intros reviews w F.
  - exists [], w. cbn. rewrite app_nil_r. repeat split; [constructor | lia].
  - cbn in F. apply andb_prop in F as [Fp Fps].
    cbn [CodeReviewEngine.run_personas]. unfold bind at 1 2. unfold print at 1.
    destruct (persona_review_code_fills rt p code_diff
                (printed w (Line ("⚡ Running " ++ CodeReviewPersona.name p ++ " review..."))) Fp)
      as (r & w1 & E & R & _ & L).
    unfold printed in E. rewrite E.
    destruct (IH (reviews ++ [r])%list w1 Fps) as (rs & w' & E' & R' & L').
    exists (r :: rs), w'. rewrite E', <- app_assoc. cbn.
    repeat split; [constructor; assumption|].
    rewrite L', L. cbn. lia.
Qed.

(** When the template of one persona does not fill, the exception leaves
    the loop: the reviews collected so far are lost and the personas after
    it are not run. *)
Lemma run_personas_raises (rt : Runtime) (code_diff : string)
      (before after : list CodeReviewPersona.t) (p : CodeReviewPersona.t) (e : PyExc) :
  forall (reviews : list Review.t) (w : World),
    forallb (fills rt code_diff) before = true ->
    str_format (format_value rt) (CodeReviewPersona.prompt_template p) code_diff = inl e ->
    exists w',
      CodeReviewEngine.run_personas rt (before ++ p :: after)%list code_diff reviews w
      = (inl e, w')
      /\ length (requests w') = length (requests w) + length before.
Proof.
  induction before as [|q qs IH]; intros reviews w F E.
  - cbn [app CodeReviewEngine.run_personas]. unfold bind at 1 2. unfold print at 1.
    rewrite persona_review_code_eq, E. eexists; split; [reflexivity|]. cbn. lia.
  - cbn in F. apply andb_prop in F as [Fq Fqs].
    cbn [app CodeReviewEngine.run_personas]. unfold bind at 1 2. unfold print at 1.
    destruct (persona_review_code_fills rt q code_diff
                (printed w (Line ("⚡ Running " ++ CodeReviewPersona.name q ++ " review..."))) Fq)
      as (r & w1 & E1 & _ & _ & L).
    unfold printed in E1. rewrite E1.
    destruct (IH (reviews ++ [r])%list w1 Fqs E) as (w' & E' & L').
    exists w'. split; [exact E'|]. rewrite L', L. cbn. lia.
Qed.

(** The names of the reviews that the loop returns are the names of the
    personas it ran, in order. *)
Lemma run_personas_names (rt : Runtime) (code_diff : string)
      (ps : list CodeReviewPersona.t) :
  forall (reviews out : list Review.t) (w w' : World),
    CodeReviewEngine.run_personas rt ps code_diff reviews w = (inr out, w') ->
    map Review.persona out
    = (map Review.persona reviews ++ map CodeReviewPersona.name ps)%list.
Proof.
  induction ps as [|p ps IH]; intros reviews out w w' E.
  - cbn in E. injection E as <- _. now rewrite app_nil_r.
  - cbn [CodeReviewEngine.run_personas] in E. unfold bind at 1 2 in E. unfold print at 1 in E.
    rewrite persona_review_code_eq in E.
    destruct (str_format _ _ _) as [e|full_prompt]; [discriminate|].
    cbv zeta in E.
    destruct (generate_content _ _ _) as [text|e];
      apply IH in E; rewrite E, map_app, <- app_assoc; reflexivity.
Qed.

(** ** The dispatcher *)


Lemma engine_review_code_some (rt : Runtime) (self : CodeReviewEngine.t)
      (code_diff : string) (names : list string) (file_path : option string) (w : World) :
  CodeReviewEngine.review_code rt self code_diff (Some names) file_path w
  = match filter (CodeReviewEngine.selected names) (CodeReviewEngine.personas self) with
    | [] => (inr [], printed w (WarningNoMatch names))
    | p :: ps =>
        CodeReviewEngine.run_personas rt (p :: ps) code_diff []
          (printed w (Line ("🔍 Starting review with " ++ PyStr.of_nat (length (p :: ps))
                            ++ " persona(s)...")))
    end.
Proof.
  unfold CodeReviewEngine.review_code.
  destruct (filter _ _); reflexivity.
Qed.

(** With a list of names that matches, and when the templates of the
    matched personas fill, the dispatcher returns one review per matched
    persona, in the order of the registry, whatever the endpoint answers. *)
Lemma review_code_with_selection (rt : Runtime) (self : CodeReviewEngine.t)
      (code_diff : string) (names : list string) (file_path : option string) (w : World) :
  filter (CodeReviewEngine.selected names) (CodeReviewEngine.personas self) <> [] ->
  forallb (fills rt code_diff)
          (filter (CodeReviewEngine.selected names) (CodeReviewEngine.personas self)) = true ->
  exists rs w',
    CodeReviewEngine.review_code rt self code_diff (Some names) file_path w = (inr rs, w')
    /\ Forall2 review_of
         (filter (CodeReviewEngine.selected names) (CodeReviewEngine.personas self)) rs.
Proof.
  intros N F. rewrite engine_review_code_some.
  destruct (filter _ _) as [|p ps]; [now elim N|].
  set (w0 := printed w _).
  destruct (run_personas_all rt code_diff (p :: ps) [] w0 F) as (rs & w' & E & R & _).
  exists rs, w'. split; [exact E | exact R].
Qed.

(** The two built-in templates have the code slot as their only field. *)
Lemma default_templates_fill (rt : Runtime) (code_diff : string) :
  fills rt code_diff Sample.code_quality = true
  /\ fills rt code_diff Sample.bug_hunter = true.
Proof. split; vm_compute; reflexivity. Qed.

(** [_initialize_personas] makes no call and prints nothing. *)
Lemma engine_init_eq (rt : Runtime) (w : World) :
  CodeReviewEngine.init rt Sample.config w = (inr Sample.engine, w).
Proof. reflexivity. Qed.

(** * The claims *)

(** ** Templating failures *)

(** A template that does not fill makes [review_code] raise, in every
    world and whatever the endpoint would answer: the call to [format] is
    made before the [try] block is entered. *)
Lemma persona_review_code_raises (rt : Runtime) (self : CodeReviewPersona.t)
      (code_diff : string) (e : PyExc) (w : World) :
  str_format (format_value rt) (CodeReviewPersona.prompt_template self) code_diff = inl e ->
  CodeReviewPersona.review_code rt self code_diff w = (inl e, w).
Proof. intros E. now rewrite persona_review_code_eq, E. Qed.

(** C1.  A persona whose template has a placeholder other than the code
    slot: [review_code] raises [KeyError] to its caller and returns no
    review, for every payload, every world and every endpoint. *)
Theorem review_code_template_error_escapes :
  forall (rt : Runtime) (code_diff : string) (w : World),
    CodeReviewPersona.review_code rt (Sample.custom Sample.braces_template) code_diff w
    = (inl (KeyError "severity"), w).
Proof. intros. apply persona_review_code_raises. reflexivity. Qed.

(** C3.  The registry that [main] builds when the generated template has
    braces of its own, with a selection that matches two personas: the
    review of the first is made, the second raises, and the dispatcher
    returns no review at all. *)
Theorem dispatch_template_error_drops_reviews :
  forall (rt : Runtime) (code_diff : string) (w : World),
    exists w',
      CodeReviewEngine.review_code rt
        (Sample.engine_with (Sample.custom Sample.braces_template)) code_diff
        (Some ["bug hunter"; "custom persona"]) None w
      = (inl (KeyError "severity"), w')
      /\ length (requests w') = length (requests w) + 1.
Proof.
  intros rt code_diff w. rewrite engine_review_code_some.
  change (filter _ _) with [Sample.bug_hunter; Sample.custom Sample.braces_template].
  cbv iota.
  destruct (run_personas_raises rt code_diff [Sample.bug_hunter] []
              (Sample.custom Sample.braces_template) (KeyError "severity") []
              (printed w (Line ("🔍 Starting review with "
                 ++ PyStr.of_nat
                      (length [Sample.bug_hunter; Sample.custom Sample.braces_template])
                 ++ " persona(s)..."))))
    as (w' & E & L).
  - cbn [forallb]. now rewrite (proj2 (default_templates_fill rt code_diff)).
  - reflexivity.
  - exists w'. split; [exact E | exact L].
Qed.

(** ** Selection *)







(** A selected persona has the lower-cased name of one of the names. *)
Lemma selected_true (names : list string) (p : CodeReviewPersona.t) :
  CodeReviewEngine.selected names p = true ->
  exists s, In s names /\ PyStr.lower (CodeReviewPersona.name p) = PyStr.lower s.
Proof.
  unfold CodeReviewEngine.selected. intros H.
  apply existsb_exists in H as (l & I & E).
  apply in_map_iff in I as (s & <- & I).
  apply String.eqb_eq in E. now exists s.
Qed.

(** C9.  A persona is selected only by a name that equals its own up to
    case.  When every name of the list lower-cases to a proper substring of
    the persona's lower-cased name, the persona is not selected and the
    dispatcher returns no review under its name. *)
Theorem selection_needs_the_whole_name :
  forall (rt : Runtime) (self : CodeReviewEngine.t) (code_diff : string)
         (names : list string) (file_path : option string) (w : World)
         (p : CodeReviewPersona.t),
    (forall s, In s names ->
               ProperSubstring (PyStr.lower s) (PyStr.lower (CodeReviewPersona.name p))) ->
    CodeReviewEngine.selected names p = false
    /\ ~ In p (filter (CodeReviewEngine.selected names) (CodeReviewEngine.personas self))
    /\ forall rs w',
        CodeReviewEngine.review_code rt self code_diff (Some names) file_path w = (inr rs, w') ->
        ~ In (CodeReviewPersona.name p) (map Review.persona rs).
Proof.
  intros rt self code_diff names file_path w p H.
  assert (N : forall q, CodeReviewPersona.name q = CodeReviewPersona.name p ->
                        CodeReviewEngine.selected names q = false).
  { intros q Eq. destruct (CodeReviewEngine.selected names q) eqn:S; [|reflexivity].
    apply selected_true in S as (s & I & E).
    destruct (H s I) as [_ Ne]. rewrite Eq in E. now elim Ne. }
  split; [now apply N|]. split.
  - intros I. apply filter_In in I as [_ S]. rewrite (N p eq_refl) in S. discriminate.
  - intros rs w' E I. rewrite engine_review_code_some in E.
    destruct (filter _ _) as [|q qs] eqn:F.
    + injection E as <- _. exact I.
    + apply run_personas_names in E. rewrite E in I. cbn [map app] in I.
      rewrite <- (map_cons CodeReviewPersona.name), <- F in I.
      apply in_map_iff in I as (q' & Eq & I).
      apply filter_In in I as [_ S]. rewrite (N q' Eq) in S. discriminate.
Qed.

Lemma selection_needs_the_whole_name_witness :
  CodeReviewEngine.selected ["code quality"] Sample.code_quality = false
  /\ ~ In Sample.code_quality
       (filter (CodeReviewEngine.selected ["code quality"])
               (CodeReviewEngine.personas Sample.engine))
  /\ forall rs w',
      CodeReviewEngine.review_code Sample.rt_up Sample.engine "x = 1"
        (Some ["code quality"]) None Sample.world = (inr rs, w') ->
      ~ In (CodeReviewPersona.name Sample.code_quality) (map Review.persona rs).
Proof.
  apply (selection_needs_the_whole_name Sample.rt_up Sample.engine "x = 1"
           ["code quality"] None Sample.world Sample.code_quality).
  intros s [<-|[]]. split.
  - exists "", " specialist". reflexivity.
  - discriminate.
Defined.

(** ** Endpoint failures *)

(** C4.  Once the prompt is filled, an error of the endpoint does not leave
    [review_code]: the result is a review with status [error] whose body is
    the message of the error, and the call is the only effect. *)
Theorem review_code_endpoint_error :
  forall (rt : Runtime) (self : CodeReviewPersona.t) (code_diff full_prompt e : string)
         (w : World),
    str_format (format_value rt) (CodeReviewPersona.prompt_template self) code_diff
    = inr full_prompt ->
    generate_content rt (requests w) (request_of self full_prompt) = Fails e ->
    CodeReviewPersona.review_code rt self code_diff w
    = (inr (Review.mk (CodeReviewPersona.name self) (CodeReviewPersona.focus self)
                      ("Error during review: " ++ e) "error"),
       sent w (request_of self full_prompt)).
Proof.
  intros rt self code_diff full_prompt e w F G.
  rewrite persona_review_code_eq, F. cbv zeta. now rewrite G.
Qed.

Lemma review_code_endpoint_error_witness :
  CodeReviewPersona.review_code Sample.rt_down
    (Sample.custom "Review for a11y: {code_diff}") "x = 1" Sample.world
  = (inr (Review.mk "Custom Persona" "Custom review focus"
                    "Error during review: 429 Quota exceeded" "error"),
     sent Sample.world
          (request_of (Sample.custom "Review for a11y: {code_diff}")
                      "Review for a11y: x = 1")).
Proof.
  apply (review_code_endpoint_error Sample.rt_down
           (Sample.custom "Review for a11y: {code_diff}") "x = 1"
           "Review for a11y: x = 1" "429 Quota exceeded" Sample.world);
    reflexivity.
Defined.

(** ** Construction of a persona *)

(** C8.  A persona built from a description when the call for its template
    fails: the construction returns a persona, and its template is the
    empty string. *)
Theorem init_with_failed_meta_prompt :
  forall (rt : Runtime) (name : string) (config : Config) (focus : string)
         (prompt_template : option string) (description e : string) (w : World),
    truthy prompt_template = None ->
    description <> "" ->
    generate_content rt (requests w)
      (mkRequest (model_name config) (meta_prompt description)
                 (max_tokens config) (temperature config)) = Fails e ->
    exists w',
      CodeReviewPersona.init rt name config focus prompt_template (Some description) w
      = (inr (CodeReviewPersona.mk name focus config (model_name config) ""), w')
      /\ length (requests w') = S (length (requests w)).
Proof.
  intros rt name config focus prompt_template description e w T D G.
  unfold CodeReviewPersona.init. rewrite T.
  destruct description as [|c d]; [now elim D|].
  cbn [truthy].
  unfold generate_persona_prompt, bind, print, call, ret. cbn.
  cbn in G. rewrite G. cbn.
  eexists. split; [reflexivity|]. cbn. rewrite length_app. cbn. lia.
Qed.

Lemma init_with_failed_meta_prompt_witness :
  exists w',
    CodeReviewPersona.init Sample.rt_down "Custom Persona" Sample.config
      "Custom review focus" None (Some "focuses on accessibility") Sample.world
    = (inr (CodeReviewPersona.mk "Custom Persona" "Custom review focus" Sample.config
              (model_name Sample.config) ""), w')
    /\ length (requests w') = S (length (requests Sample.world)).
Proof.
  apply (init_with_failed_meta_prompt Sample.rt_down "Custom Persona" Sample.config
           "Custom review focus" None "focuses on accessibility" "429 Quota exceeded"
           Sample.world).
  - reflexivity.
  - discriminate.
  - reflexivity.
Defined.

(** C10.  Without a template and without a description the constructor
    raises [ValueError]; a persona that was constructed has the template it
    was given, or the one that [generate_persona_prompt] returned: the
    stripped answer of the endpoint, or the empty string. *)
Theorem init_needs_template_or_description :
  forall (rt : Runtime) (name : string) (config : Config) (focus : string)
         (prompt_template description : option string) (w : World),
    (truthy prompt_template = None -> truthy description = None ->
     CodeReviewPersona.init rt name config focus prompt_template description w
     = (inl (ValueError "Either prompt template or description must be provided."), w))
    /\ (forall p w',
           CodeReviewPersona.init rt name config focus prompt_template description w
           = (inr p, w') ->
           truthy prompt_template = Some (CodeReviewPersona.prompt_template p)
           \/ (truthy prompt_template = None
               /\ truthy description <> None
               /\ (CodeReviewPersona.prompt_template p = ""
                   \/ exists text,
                       CodeReviewPersona.prompt_template p = PyStr.strip text))).
Proof.
  intros rt name config focus prompt_template description w. split.
  - intros T D. unfold CodeReviewPersona.init. now rewrite T, D.
  - intros p w'. unfold CodeReviewPersona.init.
    destruct (truthy prompt_template) as [template|].
    + intros E. injection E as <- _. now left.
    + destruct (truthy description) as [d|]; [|discriminate].
      unfold generate_persona_prompt, bind, print, call, ret. cbn.
      destruct (generate_content _ _ _) as [text|e]; cbn;
        intros E; injection E as <- _; right; cbn;
        (split; [reflexivity|]); (split; [discriminate|]).
      * right. now exists text.
      * now left.
Qed.

Lemma init_needs_template_or_description_witness :
  CodeReviewPersona.init Sample.rt_up "Custom Persona" Sample.config
    "Custom review focus" None None Sample.world
  = (inl (ValueError "Either prompt template or description must be provided."),
     Sample.world).
Proof.
  apply (proj1 (init_needs_template_or_description Sample.rt_up "Custom Persona"
                  Sample.config "Custom review focus" None None Sample.world));
    reflexivity.
Defined.

(** ** The report *)

(** C6, as stated, fails: the block of a failed review does not show the
    focus of the persona. *)
Lemma failure_block_omits_focus :
  exists report,
    CodeReviewEngine.format_reviews Sample.engine [Sample.failed_review] Sample.world
    = (inr report, Sample.world)
    /\ ~ PyStr.Contains (Review.focus Sample.failed_review) report.
Proof.
  eexists. split; [reflexivity|].
  apply not_contains. vm_compute. reflexivity.
Qed.

(** C6, amended.  The report is the title, the summary with the number of
    reviews of status [success] and the number of status [error], a
    separator, and one block per review in the order of the input.  The
    block of a success is headed by the name of the persona and its focus;
    any other block is headed by the name and the word ERROR, without the
    focus.  Both carry the body and end with the separator. *)
Theorem format_reviews_shape :
  forall (self : CodeReviewEngine.t) (reviews : list Review.t) (w : World),
    exists blocks,
      CodeReviewEngine.format_reviews self reviews w
      = (inr (report_title
              ++ summary (count_status "success" reviews) (count_status "error" reviews)
              ++ separator ++ String.concat "" blocks), w)
      /\ Forall2 block_of reviews blocks.
Proof.
  intros self reviews w. exists (map block reviews). split.
  - apply format_reviews_eq.
  - induction reviews as [|r rs IH]; constructor; [|exact IH].
    unfold block_of, block, CodeReviewEngine.add_block, separator.
    destruct (Review.status r =? "success"); norm_append; reflexivity.
Qed.

(** C7.  The report depends on the reviews alone: not on the engine, not
    on what was printed or sent before; rendering raises nothing and leaves
    the world as it was. *)
Theorem format_reviews_pure :
  forall (self self' : CodeReviewEngine.t) (reviews : list Review.t) (w w' : World),
    exists report,
      CodeReviewEngine.format_reviews self reviews w = (inr report, w)
      /\ CodeReviewEngine.format_reviews self' reviews w' = (inr report, w').
Proof.
  intros. eexists. split; apply format_reviews_eq.
Qed.

(** Failure isolation: one failed and one successful review are both in
    the report, and each count is one. *)
Lemma format_reviews_one_each :
  exists report,
    CodeReviewEngine.format_reviews Sample.engine
      [Sample.failed_review; Sample.good_review] Sample.world
    = (inr report, Sample.world)
    /\ PyStr.contains "- ✅ Successful reviews: 1
- ❌ Failed reviews: 1
" report = true
    /\ PyStr.contains "## ❌ Bug Hunter - ERROR" report = true
    /\ PyStr.contains
         "## 🤖 Code Quality Specialist - Code maintainability and best practices"
         report = true.
Proof. eexists. split; [reflexivity|]. repeat split; vm_compute; reflexivity. Qed.

(** ** The whole run *)

(** A persona built from a description, when the endpoint answers with a
    template that has the code slot: the template is the stripped answer,
    and the review of the persona sends the template with the code in the
    place of the slot. *)
Lemma dynamic_persona_substitutes_payload (code_diff : string) :
  exists p w1 r w2,
    CodeReviewPersona.init Sample.rt_a11y "Custom Persona" Sample.config
      "Custom review focus" None (Some "focuses on accessibility") Sample.world
    = (inr p, w1)
    /\ CodeReviewPersona.prompt_template p = "Review for a11y: {code_diff}"
    /\ CodeReviewPersona.review_code Sample.rt_a11y p code_diff w1 = (inr r, w2)
    /\ map req_prompt (requests w2)
       = [meta_prompt "focuses on accessibility"; "Review for a11y: " ++ code_diff]
    /\ Review.status r = "success".
Proof.
  eexists. eexists. eexists. eexists.
  split; [reflexivity|]. split; [reflexivity|]. split; [reflexivity|].
  split; reflexivity.
Qed.

(** A description whose generated template has braces of its own: the two
    built-in reviews are made, then the run ends in [KeyError] with no
    report printed or written. *)
Lemma main_generated_template_error :
  exists w',
    main Sample.rt_braces
      (Args.mk None false None true (Some "focuses on accessibility")
               "Custom Persona" "Custom review focus")
      Sample.config Sample.world
    = (inl (KeyError "severity"), w')
    /\ length (requests w') = 3
    /\ files w' = [].
Proof. eexists. split; [vm_compute; reflexivity|]. split; reflexivity. Qed.

(** * Further properties *)

(** ** Filling a template *)

Lemma snoc_append (out : string) (c : ascii) (t : string) :
  PyStr.snoc out c ++ t = out ++ String c t.
Proof. unfold PyStr.snoc. now rewrite append_assoc. Qed.

(** Text written with doubled braces is copied with single ones. *)
Lemma scan_escaped (fv : string -> option ascii -> string -> string -> PyExc + string)
      (code_diff t rest : string) :
  forall out,
    scan fv code_diff Literal out (escape_braces t ++ rest)
    = scan fv code_diff Literal (out ++ t) rest.
Proof.
  induction t as [|c t IH]; intros out.
  - cbn. now rewrite append_nil_r.
  - cbn [escape_braces]. unfold brace.
    destruct (c =? "{")%char eqn:O.
    + apply Ascii.eqb_eq in O. subst c. cbn. rewrite IH, snoc_append. reflexivity.
    + destruct (c =? "}")%char eqn:C.
      * apply Ascii.eqb_eq in C. subst c. cbn. rewrite IH, snoc_append. reflexivity.
      * cbn [orb append scan step]. rewrite O, C, IH, snoc_append. reflexivity.
Qed.

Lemma escape_brace_free (t : string) : brace_free t = true -> escape_braces t = t.
Proof.
  induction t as [|c t IH]; [reflexivity|]. cbn. intros H.
  apply andb_prop in H as [B F]. apply negb_true_iff in B. rewrite B, IH; auto.
Qed.

Lemma format_escaped (fv : string -> option ascii -> string -> string -> PyExc + string)
      (t code_diff : string) :
  str_format fv (escape_braces t) code_diff = inr t.
Proof.
  unfold str_format.
  rewrite <- (append_nil_r (escape_braces t)), scan_escaped. reflexivity.
Qed.

Lemma format_escaped_slot (fv : string -> option ascii -> string -> string -> PyExc + string)
      (pre post code_diff : string) :
  str_format fv (escape_braces pre ++ "{code_diff}" ++ escape_braces post) code_diff
  = inr (pre ++ code_diff ++ post).
Proof.
  unfold str_format. rewrite scan_escaped. cbn.
  rewrite <- (append_nil_r (escape_braces post)), scan_escaped. cbn.
  now rewrite append_assoc.
Qed.

(** What [review_code] does once the prompt is known. *)
Lemma persona_review_code_prompt (rt : Runtime) (self : CodeReviewPersona.t)
      (code_diff full_prompt : string) (w : World) :
  str_format (format_value rt) (CodeReviewPersona.prompt_template self) code_diff
  = inr full_prompt ->
  exists r,
    CodeReviewPersona.review_code rt self code_diff w
    = (inr r, sent w (request_of self full_prompt))
    /\ review_of self r.
Proof.
  intros F. rewrite persona_review_code_eq, F. cbv zeta.
  destruct (generate_content _ _ _) as [text|e]; eexists;
    (split; [reflexivity|]); unfold review_of; cbn; repeat split; eauto.
Qed.

(** X1.  A template that is literal text, the code slot, and literal text,
    with the braces of the literal text doubled: the prompt sent is the
    text with single braces and the code in the place of the slot, the code
    copied as it is. *)
Theorem review_code_fills_the_slot :
  forall (rt : Runtime) (self : CodeReviewPersona.t) (code_diff pre post : string)
         (w : World),
    CodeReviewPersona.prompt_template self
    = escape_braces pre ++ "{code_diff}" ++ escape_braces post ->
    exists r,
      CodeReviewPersona.review_code rt self code_diff w
      = (inr r, sent w (request_of self (pre ++ code_diff ++ post)))
      /\ review_of self r.
Proof.
  intros rt self code_diff pre post w T.
  apply persona_review_code_prompt. rewrite T. apply format_escaped_slot.
Qed.

Lemma review_code_fills_the_slot_witness :
  exists r,
    CodeReviewPersona.review_code Sample.rt_up
      (Sample.custom "Answer as {{severity: ...}}. Code: {code_diff}") "d = {1: 2}"
      Sample.world
    = (inr r, sent Sample.world
                   (request_of (Sample.custom "Answer as {{severity: ...}}. Code: {code_diff}")
                               ("Answer as {severity: ...}. Code: " ++ "d = {1: 2}" ++ "")))
    /\ review_of (Sample.custom "Answer as {{severity: ...}}. Code: {code_diff}") r.
Proof.
  apply (review_code_fills_the_slot Sample.rt_up
           (Sample.custom "Answer as {{severity: ...}}. Code: {code_diff}")
           "d = {1: 2}" "Answer as {severity: ...}. Code: " "" Sample.world).
  reflexivity.
Defined.

(** X2.  A template without braces has no slot: the prompt sent is the
    template itself, and the code under review is not part of it. *)
Theorem review_code_without_slot :
  forall (rt : Runtime) (self : CodeReviewPersona.t) (code_diff : string) (w : World),
    brace_free (CodeReviewPersona.prompt_template self) = true ->
    exists r,
      CodeReviewPersona.review_code rt self code_diff w
      = (inr r, sent w (request_of self (CodeReviewPersona.prompt_template self)))
      /\ review_of self r.
Proof.
  intros rt self code_diff w B.
  apply persona_review_code_prompt.
  rewrite <- (escape_brace_free _ B) at 1. apply format_escaped.
Qed.

Lemma review_code_without_slot_witness :
  exists r,
    CodeReviewPersona.review_code Sample.rt_up (Sample.custom "") "x = 1" Sample.world
    = (inr r, sent Sample.world
                   (request_of (Sample.custom "")
                               (CodeReviewPersona.prompt_template (Sample.custom ""))))
    /\ review_of (Sample.custom "") r.
Proof.
  apply (review_code_without_slot Sample.rt_up (Sample.custom "") "x = 1" Sample.world).
  reflexivity.
Defined.

(** X3.  [review_code] of a persona prints nothing and writes no file.
    When it returns, it has made one call, in the name of the persona's
    model and with the limits of its config, and the review is the
    persona's own; when it raises, it has made none. *)
Theorem persona_review_code_effects :
  forall (rt : Runtime) (self : CodeReviewPersona.t) (code_diff : string) (w : World),
    stdout (snd (CodeReviewPersona.review_code rt self code_diff w)) = stdout w
    /\ files (snd (CodeReviewPersona.review_code rt self code_diff w)) = files w
    /\ match fst (CodeReviewPersona.review_code rt self code_diff w) with
       | inl _ =>
           requests (snd (CodeReviewPersona.review_code rt self code_diff w)) = requests w
       | inr r =>
           review_of self r
           /\ exists full_prompt,
               requests (snd (CodeReviewPersona.review_code rt self code_diff w))
               = (requests w ++ [request_of self full_prompt])%list
       end.
Proof.
  intros rt self code_diff w. rewrite persona_review_code_eq.
  destruct (str_format _ _ _) as [e|full_prompt]; [cbn; repeat split; reflexivity|].
  cbv zeta.
  destruct (generate_content _ _ _) as [text|e]; cbn;
    (split; [reflexivity|]); (split; [reflexivity|]);
    (split; [unfold review_of; cbn; repeat split; eauto | now exists full_prompt]).
Qed.

(** ** The template of a described persona *)


(** X4.  [generate_persona_prompt] never raises.  It makes exactly one
    call, for the meta-prompt of the description and with the limits of the
    config, and writes no file; the template is the stripped answer, or the
    empty string after an error of the endpoint. *)
Theorem generate_persona_prompt_never_raises :
  forall (rt : Runtime) (description : string) (config : Config) (model : string)
         (w : World),
    exists template w',
      generate_persona_prompt rt description config model w = (inr template, w')
      /\ requests w'
         = (requests w ++ [mkRequest model (meta_prompt description)
                                     (max_tokens config) (temperature config)])%list
      /\ files w' = files w
      /\ match generate_content rt (requests w)
                 (mkRequest model (meta_prompt description)
                            (max_tokens config) (temperature config)) with
         | Text text => template = PyStr.strip text /\ stdout w' = stdout w
         | Fails e =>
             template = ""
             /\ stdout w' = (stdout w ++ [Line ("Error generating persona prompt: " ++ e)])%list
         end.
Proof.
  intros rt description config model w.
  unfold generate_persona_prompt, bind, call, print, ret. cbn.
  destruct (generate_content _ _ _) as [text|e]; cbn;
    eexists; eexists; repeat split; reflexivity.
Qed.



(** ** The dispatcher, for every selection *)



(** The dispatcher is the loop over the personas that the selection runs. *)
Lemma engine_review_code_run (rt : Runtime) (self : CodeReviewEngine.t)
      (code_diff : string) (selection : option (list string)) (file_path : option string)
      (w : World) :
  CodeReviewEngine.review_code rt self code_diff selection file_path w
  = match selection, personas_to_run self selection with
    | Some names, [] => (inr [], printed w (WarningNoMatch names))
    | _, ps =>
        CodeReviewEngine.run_personas rt ps code_diff []
          (printed w (Line ("🔍 Starting review with " ++ PyStr.of_nat (length ps)
                            ++ " persona(s)...")))
    end.
Proof.
  destruct selection as [names|]; [|reflexivity].
  rewrite engine_review_code_some. unfold personas_to_run.
  destruct (filter _ _); reflexivity.
Qed.



(** The dispatcher when every template fills. *)
Lemma dispatch_when_templates_fill :
  forall (rt : Runtime) (self : CodeReviewEngine.t) (code_diff : string)
         (selection : option (list string)) (file_path : option string) (w : World),
    forallb (fills rt code_diff) (personas_to_run self selection) = true ->
    exists rs w',
      CodeReviewEngine.review_code rt self code_diff selection file_path w = (inr rs, w')
      /\ Forall2 review_of (personas_to_run self selection) rs
      /\ length (requests w')
         = length (requests w) + length (personas_to_run self selection).
Proof.
  intros rt self code_diff selection file_path w F.
  rewrite engine_review_code_run.
  destruct selection as [names|], (personas_to_run self _) as [|p ps] eqn:P.
  - exists [], (printed w (WarningNoMatch names)).
    repeat split; [constructor | cbn; lia].
  - destruct (run_personas_all rt code_diff (p :: ps) []
                (printed w (Line ("🔍 Starting review with "
                                  ++ PyStr.of_nat (length (p :: ps)) ++ " persona(s)..."))) F)
      as (rs & w' & E & R & L).
    exists rs, w'. repeat split; assumption.
  - exists [], (printed w (Line ("🔍 Starting review with "
                                 ++ PyStr.of_nat (length (@nil CodeReviewPersona.t))
                                 ++ " persona(s)..."))).
    repeat split; [constructor | cbn; lia].
  - destruct (run_personas_all rt code_diff (p :: ps) []
                (printed w (Line ("🔍 Starting review with "
                                  ++ PyStr.of_nat (length (p :: ps)) ++ " persona(s)..."))) F)
      as (rs & w' & E & R & L).
    exists rs, w'. repeat split; assumption.
Qed.




(** ** The summary of a report *)

Lemma count_status_le (rs : list Review.t) :
  count_status "success" rs + count_status "error" rs <= length rs
  /\ (count_status "success" rs + count_status "error" rs = length rs
      <-> Forall counted rs).
Proof.
  unfold count_status, counted.
  induction rs as [|r rs [IH1 IH2]]; cbn [map count_occ length].
  - split; [lia|]. split; [constructor | reflexivity].
  - destruct (string_dec (Review.status r) "success") as [S|S];
      destruct (string_dec (Review.status r) "error") as [E|E];
      try (rewrite S in E; discriminate).
    + split; [lia|]. split.
      * intros H. constructor; [now left | apply IH2; lia].
      * intros H. inversion H; subst. apply IH2 in H3. lia.
    + split; [lia|]. split.
      * intros H. constructor; [now right | apply IH2; lia].
      * intros H. inversion H; subst. apply IH2 in H3. lia.
    + split; [lia|]. split.
      * intros H. lia.
      * intros H. inversion H; subst. tauto.
Qed.


(** X8.  The summary never counts more reviews than the report has
    blocks: a review whose status is neither [success] nor [error] gets a
    block, headed as a failure, and is counted in neither total.  The two
    counts add up to the number of blocks exactly when every status is one
    of the two. *)
Theorem summary_counts_and_blocks :
  forall (self : CodeReviewEngine.t) (reviews : list Review.t) (w : World),
    exists ok failed blocks,
      CodeReviewEngine.format_reviews self reviews w
      = (inr (report_title ++ summary ok failed ++ separator ++ String.concat "" blocks), w)
      /\ Forall2 block_of reviews blocks
      /\ ok + failed <= length blocks
      /\ (ok + failed = length blocks <-> Forall counted reviews).
Proof.
  intros self reviews w.
  exists (count_status "success" reviews), (count_status "error" reviews), (map block reviews).
  split; [apply format_reviews_eq|]. rewrite length_map.
  split; [|apply count_status_le].
  induction reviews as [|r rs IH]; constructor; [|exact IH].
  unfold block_of, block, CodeReviewEngine.add_block, separator.
  destruct (Review.status r =? "success"); norm_append; reflexivity.
Qed.



(** ** The selection *)

Lemma selected_iff (names : list string) (p : CodeReviewPersona.t) :
  CodeReviewEngine.selected names p = true
  <-> In (PyStr.lower (CodeReviewPersona.name p)) (map PyStr.lower names).
Proof.
  unfold CodeReviewEngine.selected. rewrite existsb_exists. split.
  - intros (l & I & E). apply String.eqb_eq in E. now subst.
  - intros I. eexists. split; [exact I | apply String.eqb_refl].
Qed.


(** X11.  The personas that are run depend on the set of lower-cased
    names only: the order of the names, their repetition and their case
    change nothing, and the reviews come in the order of the registry. *)
Theorem selection_up_to_order_and_case :
  forall (self : CodeReviewEngine.t) (names names' : list string),
    (forall x, In x (map PyStr.lower names) <-> In x (map PyStr.lower names')) ->
    personas_to_run self (Some names) = personas_to_run self (Some names').
Proof.
  intros self names names' H. unfold personas_to_run.
  apply filter_ext. intros p.
  destruct (CodeReviewEngine.selected names p) eqn:S;
    destruct (CodeReviewEngine.selected names' p) eqn:S'; try reflexivity.
  - apply selected_iff, H, selected_iff in S. congruence.
  - apply selected_iff, H, selected_iff in S'. congruence.
Qed.

Lemma selection_up_to_order_and_case_witness :
  personas_to_run Sample.engine (Some ["BUG HUNTER"; "Code Quality Specialist"; "bug hunter"])
  = personas_to_run Sample.engine (Some ["code quality specialist"; "Bug Hunter"]).
Proof.
  apply (selection_up_to_order_and_case Sample.engine
           ["BUG HUNTER"; "Code Quality Specialist"; "bug hunter"]
           ["code quality specialist"; "Bug Hunter"]).
  intros x. cbn. tauto.
Defined.

(** ** A fresh engine *)

Lemma forallb_filter {A : Type} (f g : A -> bool) (l : list A) :
  forallb f l = true -> forallb f (filter g l) = true.
Proof.
  induction l as [|a l IH]; [reflexivity|]. cbn. intros H.
  apply andb_prop in H as [Fa Fl]. destruct (g a); cbn; [rewrite Fa|]; auto.
Qed.

(** X12.  The constructor of the engine registers the two built-in
    personas with the config it was given, without a call and without
    output.  Their templates fill for every code, so the dispatcher of a
    fresh engine never raises: for every selection, code and endpoint it
    returns one review per persona that the selection runs. *)
Theorem fresh_engine_dispatch_never_raises :
  forall (rt : Runtime) (config : Config) (code_diff : string)
         (selection : option (list string)) (file_path : option string) (w : World),
    exists self rs w',
      CodeReviewEngine.init rt config w = (inr self, w)
      /\ map CodeReviewPersona.name (CodeReviewEngine.personas self)
         = ["Code Quality Specialist"; "Bug Hunter"]
      /\ Forall (fun p => CodeReviewPersona.config p = config) (CodeReviewEngine.personas self)
      /\ CodeReviewEngine.review_code rt self code_diff selection file_path w = (inr rs, w')
      /\ Forall2 review_of (personas_to_run self selection) rs.
Proof.
  intros rt config code_diff selection file_path w.
  assert (F : forallb (fills rt code_diff)
                [CodeReviewPersona.mk "Code Quality Specialist"
                   "Code maintainability and best practices" config (model_name config)
                   CodeReviewEngine.code_quality_template;
                 CodeReviewPersona.mk "Bug Hunter" "Potential bugs and edge cases"
                   config (model_name config) CodeReviewEngine.bug_hunter_template] = true)
    by (vm_compute; reflexivity).
  eexists. 
  assert (G : forallb (fills rt code_diff)
                (personas_to_run
                   (CodeReviewEngine.mk config
                      [CodeReviewPersona.mk "Code Quality Specialist"
                         "Code maintainability and best practices" config (model_name config)
                         CodeReviewEngine.code_quality_template;
                       CodeReviewPersona.mk "Bug Hunter" "Potential bugs and edge cases"
                         config (model_name config) CodeReviewEngine.bug_hunter_template])
                   selection) = true).
  { destruct selection; [apply forallb_filter|]; exact F. }
  destruct (dispatch_when_templates_fill rt _ code_diff selection file_path w G)
    as (rs & w' & E & R & _).
  exists rs, w'. split; [reflexivity|]. split; [reflexivity|].
  split; [repeat constructor|]. split; [exact E | exact R].
Qed.

(** ** The listing *)

Lemma list_personas_from_eq (ps : list CodeReviewPersona.t) :
  forall (i : nat) (w : World),
    CodeReviewEngine.list_personas_from i ps w
    = (inr tt,
       mkWorld (stdout w
                ++ map (fun ip : nat * CodeReviewPersona.t =>
                          Line ("  " ++ PyStr.of_nat (fst ip) ++ ". "
                                ++ CodeReviewPersona.name (snd ip)
                                ++ " - " ++ CodeReviewPersona.focus (snd ip)))
                       (combine (seq i (length ps)) ps))%list
               (requests w) (files w)).
Proof.
  induction ps as [|p ps IH]; intros i w.
  - cbn. rewrite app_nil_r. now destruct w.
  - cbn [CodeReviewEngine.list_personas_from]. unfold bind, print.
    rewrite IH. cbn. now rewrite <- app_assoc.
Qed.

(** The output of the listing. *)
Lemma list_available_personas_eq :
  forall (self : CodeReviewEngine.t) (w : World),
    CodeReviewEngine.list_available_personas self w
    = (inr tt,
       mkWorld (stdout w ++ listing_header ++ listing (CodeReviewEngine.personas self)
                ++ listing_footer)%list
               (requests w) (files w)).
Proof.
  intros self w. unfold CodeReviewEngine.list_available_personas.
  unfold bind at 1. unfold print at 1. unfold bind at 1.
  rewrite list_personas_from_eq. unfold bind, print. cbn.
  unfold listing, listing_header, listing_footer.
  f_equal. f_equal. rewrite <- !app_assoc. reflexivity.
Qed.

(** X13.  [list_available_personas] prints the heading, one line per
    registered persona with its rank from 1, its name and its focus, in
    the order of the registry, then the five closing lines; it never
    raises, makes no call and writes no file. *)
Theorem list_available_personas_output :
  forall (self : CodeReviewEngine.t) (w : World),
    CodeReviewEngine.list_available_personas self w
    = (inr tt,
       mkWorld (stdout w ++ listing_header ++ listing (CodeReviewEngine.personas self)
                ++ listing_footer)%list
               (requests w) (files w)).
Proof. exact list_available_personas_eq. Qed.

(** ** The run *)

Lemma engine_init_builtin (rt : Runtime) (config : Config) (w : World) :
  CodeReviewEngine.init rt config w = (inr (builtin_engine config), w).
Proof. reflexivity. Qed.

(** [main] when no description is given. *)
Lemma main_without_description (rt : Runtime) (args : Args.t) (config : Config) (w : World) :
  truthy (Args.description args) = None ->
  main rt args config w
  = (if Args.list_personas args
     then CodeReviewEngine.list_available_personas (builtin_engine config)
     else
       match truthy (Args.file args) with
       | Some file =>
           unless_quiet args ("📄 Reading file: " ++ file) ;;
           code_content <- read_file_content rt file ;;
           match code_content with
           | None => ret tt
           | Some code_content =>
               review_and_report rt args (builtin_engine config) code_content file
           end
       | None =>
           unless_quiet args "📝 No input file specified, using sample code..." ;;
           review_and_report rt args (builtin_engine config) sample_code "sample.py"
       end) w.
Proof.
  intros D. unfold main. unfold bind at 1. rewrite engine_init_builtin.
  unfold bind at 1. rewrite D. reflexivity.
Qed.

Lemma unless_quiet_eq (args : Args.t) (line : string) (w : World) :
  unless_quiet args line w
  = (inr tt, mkWorld (stdout w ++ (if Args.quiet args then [] else [Line line]))%list
                     (requests w) (files w)).
Proof.
  unfold unless_quiet. destruct (Args.quiet args); cbn; [|reflexivity].
  rewrite app_nil_r. now destruct w.
Qed.


(** *** What leaves the files alone *)


















(** *** The report file *)








(** X16.  With [--list-personas] and no description, [main] prints the
    listing of the two built-in personas and stops: the file and the names
    of the command line are not looked at, no call is made and no file is
    written. *)
Theorem main_list_personas :
  forall (rt : Runtime) (args : Args.t) (config : Config) (w : World),
    truthy (Args.description args) = None ->
    Args.list_personas args = true ->
    main rt args config w
    = (inr tt,
       mkWorld (stdout w ++ listing_header
                ++ listing (CodeReviewEngine.personas (builtin_engine config))
                ++ listing_footer)%list
               (requests w) (files w)).
Proof.
  intros rt args config w D L.
  rewrite main_without_description, L by exact D.
  apply list_available_personas_eq.
Qed.

Lemma main_list_personas_witness :
  main Sample.rt_down (Args.mk (Some ["nobody"]) true (Some "missing.py") false None
                               "Custom Persona" "Custom review focus")
       Sample.config Sample.world
  = (inr tt,
     mkWorld (stdout Sample.world ++ listing_header
              ++ listing (CodeReviewEngine.personas (builtin_engine Sample.config))
              ++ listing_footer)%list
             (requests Sample.world) (files Sample.world)).
Proof.
  apply (main_list_personas Sample.rt_down
           (Args.mk (Some ["nobody"]) true (Some "missing.py") false None
                    "Custom Persona" "Custom review focus")
           Sample.config Sample.world); reflexivity.
Defined.

(** X17.  When the file of [--file] cannot be read, [main] prints the
    error and stops before any review: no call, no file. *)
Theorem main_unreadable_file :
  forall (rt : Runtime) (args : Args.t) (config : Config) (w : World),
    truthy (Args.description args) = None ->
    Args.list_personas args = false ->
    code_content_of rt args = None ->
    exists file,
      truthy (Args.file args) = Some file
      /\ main rt args config w
         = (inr tt,
            mkWorld (stdout w
                     ++ (if Args.quiet args then [] else [Line ("📄 Reading file: " ++ file)])
                     ++ [Line match read_file rt file with
                              | ReadError e => "❌ Error reading file: " ++ e
                              | _ => "❌ Error: File '" ++ file ++ "' not found"
                              end])%list
                    (requests w) (files w)).
Proof.
  intros rt args config w D L C.
  rewrite main_without_description, L by exact D.
  unfold code_content_of in C.
  destruct (truthy (Args.file args)) as [file|]; [|discriminate].
  exists file. split; [reflexivity|].
  unfold bind at 1. rewrite unless_quiet_eq.
  unfold bind at 1. unfold read_file_content.
  destruct (read_file rt file) as [s| |e]; [discriminate| |];
    cbn; now rewrite <- app_assoc.
Qed.

Lemma main_unreadable_file_witness :
  exists file,
    truthy (Args.file (Args.mk None false (Some "missing.py") false None
                               "Custom Persona" "Custom review focus")) = Some file
    /\ main Sample.rt_up (Args.mk None false (Some "missing.py") false None
                                  "Custom Persona" "Custom review focus")
            Sample.config Sample.world
       = (inr tt,
          mkWorld (stdout Sample.world
                   ++ (if Args.quiet (Args.mk None false (Some "missing.py") false None
                                              "Custom Persona" "Custom review focus")
                       then [] else [Line ("📄 Reading file: " ++ file)])
                   ++ [Line match read_file Sample.rt_up file with
                            | ReadError e => "❌ Error reading file: " ++ e
                            | _ => "❌ Error: File '" ++ file ++ "' not found"
                            end])%list
                  (requests Sample.world) (files Sample.world)).
Proof.
  apply (main_unreadable_file Sample.rt_up
           (Args.mk None false (Some "missing.py") false None
                    "Custom Persona" "Custom review focus")
           Sample.config Sample.world); reflexivity.
Defined.

(** X18.  When the names of [--personas] match none of the built-in
    personas, [main] prints the warning of the dispatcher and then that no
    review was generated, and stops: no call, no report, no file. *)
Theorem main_no_matching_persona :
  forall (rt : Runtime) (args : Args.t) (config : Config) (code_content : string)
         (w : World),
    truthy (Args.description args) = None ->
    Args.list_personas args = false ->
    code_content_of rt args = Some code_content ->
    personas_to_run (builtin_engine config) (Args.personas args) = [] ->
    exists names lines,
      Args.personas args = Some names
      /\ main rt args config w
         = (inr tt,
            mkWorld (stdout w ++ lines
                     ++ [WarningNoMatch names; Line "❌ No reviews generated."])%list
                    (requests w) (files w)).
Proof.
  intros rt args config code_content w D L C N.
  destruct (Args.personas args) as [names|] eqn:P; [|discriminate].
  assert (R : forall file_path w0,
             review_and_report rt args (builtin_engine config) code_content file_path w0
             = (inr tt,
                mkWorld (stdout w0 ++ [WarningNoMatch names; Line "❌ No reviews generated."])%list
                        (requests w0) (files w0))).
  { intros file_path w0. unfold review_and_report. unfold bind at 1.
    rewrite P, engine_review_code_some.
    unfold personas_to_run in N. rewrite N. cbv iota.
    unfold print, printed. cbn. now rewrite <- app_assoc. }
  exists names.
  rewrite main_without_description, L by exact D.
  unfold code_content_of in C.
  destruct (truthy (Args.file args)) as [file|].
  - destruct (read_file rt file) as [s| |e] eqn:Rd; try discriminate.
    injection C as ->.
    exists (if Args.quiet args then [] else [Line ("📄 Reading file: " ++ file)]).
    split; [reflexivity|].
    unfold bind at 1. rewrite unless_quiet_eq.
    unfold bind at 1. unfold read_file_content. rewrite Rd. unfold ret at 1.
    rewrite R. cbn. now rewrite <- app_assoc.
  - injection C as <-.
    exists (if Args.quiet args then []
            else [Line "📝 No input file specified, using sample code..."]).
    split; [reflexivity|].
    unfold bind at 1. rewrite unless_quiet_eq.
    rewrite R. cbn. now rewrite <- app_assoc.
Qed.

Lemma main_no_matching_persona_witness :
  exists names lines,
    Args.personas (Args.mk (Some ["code quality"]) false None false None
                           "Custom Persona" "Custom review focus") = Some names
    /\ main Sample.rt_up (Args.mk (Some ["code quality"]) false None false None
                                  "Custom Persona" "Custom review focus")
            Sample.config Sample.world
       = (inr tt,
          mkWorld (stdout Sample.world ++ lines
                   ++ [WarningNoMatch names; Line "❌ No reviews generated."])%list
                  (requests Sample.world) (files Sample.world)).
Proof.
  apply (main_no_matching_persona Sample.rt_up
           (Args.mk (Some ["code quality"]) false None false None
                    "Custom Persona" "Custom review focus")
           Sample.config sample_code Sample.world); reflexivity.
Defined.

(** ** The configuration *)

(** X19.  Without [GOOGLE_API_KEY], or with an empty one, the program
    prints the three lines of advice and stops.  The other variables are
    not read: a token limit that is not a number does not matter here.
    No persona is built, no call is made and no file is written. *)
Theorem main_without_api_key :
  forall (env : Environ) (rt : Runtime) (args : Args.t) (w : World),
    truthy (getenv env "GOOGLE_API_KEY") = None ->
    main_with_config env rt args w
    = (inr tt,
       mkWorld (stdout w
                ++ [ Line "❌ Error: Please set GOOGLE_API_KEY environment variable";
                     Line "   Example: export GOOGLE_API_KEY='your-api-key-here'";
                     Line "   Or create a .env file with: GOOGLE_API_KEY=your-api-key-here" ])%list
               (requests w) (files w)).
Proof.
  intros env rt args w K.
  unfold main_with_config, load_config. rewrite K.
  unfold bind, print, ret. cbn. now rewrite <- !app_assoc.
Qed.

Lemma main_without_api_key_witness :
  main_with_config
    (mkEnviron (fun name => if name =? "MAX_TOKENS" then Some "lots" else Some "")
               (py_int empty_environ) (py_float empty_environ))
    Sample.rt_up
    (Args.mk None false None false None "Custom Persona" "Custom review focus")
    Sample.world
  = (inr tt,
     mkWorld (stdout Sample.world
              ++ [ Line "❌ Error: Please set GOOGLE_API_KEY environment variable";
                   Line "   Example: export GOOGLE_API_KEY='your-api-key-here'";
                   Line "   Or create a .env file with: GOOGLE_API_KEY=your-api-key-here" ])%list
             (requests Sample.world) (files Sample.world)).
Proof.
  apply (main_without_api_key
           (mkEnviron (fun name => if name =? "MAX_TOKENS" then Some "lots" else Some "")
                      (py_int empty_environ) (py_float empty_environ))
           Sample.rt_up
           (Args.mk None false None false None "Custom Persona" "Custom review focus")
           Sample.world).
  reflexivity.
Defined.

(** X20.  With the key set, a token limit that [int] rejects makes the
    program raise that error from [load_config]: nothing has been printed,
    the temperature has not been converted, no persona is built and no
    call is made. *)
Theorem main_bad_token_limit :
  forall (env : Environ) (rt : Runtime) (args : Args.t) (w : World) (e : PyExc),
    truthy (getenv env "GOOGLE_API_KEY") <> None ->
    py_int env (getenv_default env "MAX_TOKENS" "2000") = inl e ->
    main_with_config env rt args w = (inl e, w).
Proof.
  intros env rt args w e K I.
  unfold main_with_config, load_config.
  destruct (truthy (getenv env "GOOGLE_API_KEY")) as [key|]; [|now elim K].
  unfold bind, lift. now rewrite I.
Qed.

Lemma main_bad_token_limit_witness :
  main_with_config keyed_environ Sample.rt_up
    (Args.mk None false None false None "Custom Persona" "Custom review focus")
    Sample.world
  = (inl (ValueError "invalid literal for int() with base 10: 'lots'"), Sample.world).
Proof.
  apply (main_bad_token_limit keyed_environ Sample.rt_up
           (Args.mk None false None false None "Custom Persona" "Custom review focus")
           Sample.world (ValueError "invalid literal for int() with base 10: 'lots'")).
  - discriminate.
  - reflexivity.
Defined.
